(** * Transition warnings of [telegram/_utils/warnings_transition.py]

    A shallow embedding of the helpers that warn about renamed arguments,
    attributes and keyword parameters, and the properties they satisfy.

    - Python values of type [Any] are seen through the two operations the
      module applies to them: truthiness ([if x], [x and y]) and inequality
      ([x != y]).  They form the interface [PyObject]; [PyVal] is the
      instance of the builtin scalars.
    - The effects are the warnings handed to [warn] and the exception a
      [raise] throws.  A computation is a function from the warning channel
      (the records emitted so far, oldest first) to an outcome and the
      channel afterwards. *)

From Stdlib Require Import ZArith String Floats.
From stdpp Require Import gmap strings list.

Local Open Scope Z_scope.

(* ===================================================================== *)
(** ** Exceptions, outcomes and the warning channel *)
(* ===================================================================== *)

(** [ValueError] is the exception the module raises itself.  [TypeError] is
    the interpreter's own error for a call that leaves a required parameter
    unbound; its text is not modelled.  [OtherException] stands for whatever
    a decorated function may raise. *)
Inductive PyException : Type :=
  | ValueError (msg : string)
  | TypeError
  | OtherException (cls : string) (msg : string).

Inductive Outcome (A : Type) : Type :=
  | Returns (a : A)
  | Raises (e : PyException).

Arguments Returns {A} a.
Arguments Raises {A} e.

(** The warning categories of [telegram.warnings] the helpers refer to. *)
Inductive WarningCategory : Type :=
  | PTBUserWarning
  | PTBDeprecationWarning.

(** One record of the warning channel: what [warn] was called with. *)
Record WarningRecord : Type := mkWarning {
  w_message : string;
  w_category : WarningCategory;
  w_stacklevel : Z
}.

Definition Py (A : Type) : Type :=
  list WarningRecord -> Outcome A * list WarningRecord.

Definition ret {A : Type} (a : A) : Py A :=
  fun ch => (Returns a, ch).

Definition raise {A : Type} (e : PyException) : Py A :=
  fun ch => (Raises e, ch).

Definition bind {A B : Type} (m : Py A) (k : A -> Py B) : Py B :=
  fun ch =>
    match m ch with
    | (Returns a, ch') => k a ch'
    | (Raises e, ch') => (Raises e, ch')
    end.

Declare Scope py_scope.
Delimit Scope py_scope with py.
Notation "x <- m ;; k" := (bind m (fun x => k))
  (at level 100, m at next level, right associativity) : py_scope.
Notation "m ;; k" := (bind m (fun _ => k))
  (at level 100, right associativity) : py_scope.
Local Open Scope py_scope.

(** [if cond: body] with no [else]. *)
Definition when (cond : bool) (body : Py unit) : Py unit :=
  if cond then body else ret tt.

(** [for x in xs: body(x)]. *)
Fixpoint for_each {A : Type} (xs : list A) (body : A -> Py unit) : Py unit :=
  match xs with
  | [] => ret tt
  | x :: rest => body x ;; for_each rest body
  end.

(** Modelled from the spec: [telegram._utils.warnings.warn], imported by the
    module and not part of it.  The warning channel "accepts (message,
    category, stack_depth) and records it"; emission "never raises, never
    blocks, never alters returned values". *)
Definition warn (message : string) (category : WarningCategory)
    (stacklevel : Z) : Py unit :=
  fun ch => (Returns tt, ch ++ [mkWarning message category stacklevel]).

(** The notices a computation added to the channel [ch]. *)
Definition emitted {A : Type} (m : Py A) (ch : list WarningRecord)
    : list WarningRecord :=
  drop (length ch) (m ch).2.

(* ===================================================================== *)
(** ** Substrings *)
(* ===================================================================== *)

(** [infix_of p s]: the text [p] occurs in [s] (Python's [p in s]). *)
Fixpoint infix_of (p s : string) : bool :=
  String.prefix p s ||
  match s with
  | EmptyString => false
  | String _ s' => infix_of p s'
  end.

(* ===================================================================== *)
(** ** Python objects *)
(* ===================================================================== *)

(** What the module asks of a value of type [Any]: [truthy x] is [bool(x)],
    [py_ne x y] is [bool(x != y)], and [None] is falsy.  Both operations are
    taken as pure and total, as they are on the builtin types; [py_ne] need
    not be irreflexive (a float NaN is unequal to itself). *)
Class PyObject (V : Type) : Type := {
  truthy : V -> bool;
  py_ne : V -> V -> bool;
  None_ : V;
  truthy_None : truthy None_ = false
}.

#[local] Instance byte_eq_dec : EqDecision Byte.byte := Byte.byte_eq_dec.

(** The builtin scalars. *)
Inductive PyVal : Type :=
  | PyNone
  | PyBool (b : bool)
  | PyInt (z : Z)
  | PyFloat (f : float)
  | PyStr (s : string)
  | PyBytes (bs : list Byte.byte).

Definition PyVal_truthy (v : PyVal) : bool :=
  match v with
  | PyNone => false
  | PyBool b => b
  | PyInt z => negb (z =? 0)
  | PyFloat f => negb (PrimFloat.eqb f PrimFloat.zero)
  | PyStr s => negb (String.eqb s "")
  | PyBytes bs => negb (bool_decide (bs = []))
  end.

(** An integer and a float are equal when they denote the same number;
    infinities and NaN equal no integer. *)
Definition Z_eqb_float (z : Z) (f : float) : bool :=
  match Prim2SF f with
  | S754_zero _ => z =? 0
  | S754_finite s m e =>
      let n := if s then Z.neg m else Z.pos m in
      if 0 <=? e then z =? n * 2 ^ e else z * 2 ^ (- e) =? n
  | S754_infinity _ => false
  | S754_nan => false
  end.

Definition Z_of_bool (b : bool) : Z := if b then 1 else 0.

(** [x == y] on the builtin scalars: [bool] is a subclass of [int], numbers
    compare by value across [int] and [float], NaN equals nothing, and
    values of unrelated types are unequal. *)
Definition PyVal_eq (x y : PyVal) : bool :=
  match x, y with
  | PyNone, PyNone => true
  | PyBool a, PyBool b => Z_of_bool a =? Z_of_bool b
  | PyBool a, PyInt z | PyInt z, PyBool a => Z_of_bool a =? z
  | PyBool a, PyFloat f | PyFloat f, PyBool a => Z_eqb_float (Z_of_bool a) f
  | PyInt a, PyInt b => a =? b
  | PyInt z, PyFloat f | PyFloat f, PyInt z => Z_eqb_float z f
  | PyFloat f, PyFloat g => PrimFloat.eqb f g
  | PyStr s, PyStr t => String.eqb s t
  | PyBytes a, PyBytes b => bool_decide (a = b)
  | _, _ => false
  end.

Definition PyVal_ne (x y : PyVal) : bool := negb (PyVal_eq x y).

#[export] Instance PyVal_object : PyObject PyVal := {
  truthy := PyVal_truthy;
  py_ne := PyVal_ne;
  None_ := PyNone;
  truthy_None := eq_refl
}.

(* ===================================================================== *)
(** ** The module *)
(* ===================================================================== *)

(** The text of the [ValueError] of [warn_about_deprecated_arg_return_new_arg]. *)
Definition conflict_message
    (deprecated_arg_name new_arg_name bot_api_version : string) : string :=
  "You passed different entities as '" +:+ deprecated_arg_name +:+ "' and '"
    +:+ new_arg_name +:+ "'. "
  +:+ "The parameter '" +:+ deprecated_arg_name +:+ "' was renamed to '"
    +:+ new_arg_name +:+ "' in Bot API "
  +:+ bot_api_version +:+ ". We recommend using '" +:+ new_arg_name
    +:+ "' instead of "
  +:+ "'" +:+ deprecated_arg_name +:+ "'.".

(** The text of the warning of [warn_about_deprecated_arg_return_new_arg]. *)
Definition renamed_argument_message
    (deprecated_arg_name new_arg_name bot_api_version : string) : string :=
  "Bot API " +:+ bot_api_version +:+ " renamed the argument '"
    +:+ deprecated_arg_name +:+ "' to "
  +:+ "'" +:+ new_arg_name +:+ "'.".

(** The text of the warning of [warn_about_deprecated_attr_in_property]. *)
Definition renamed_attribute_message
    (deprecated_attr_name new_attr_name bot_api_version : string) : string :=
  "Bot API " +:+ bot_api_version +:+ " renamed the attribute '"
    +:+ deprecated_attr_name +:+ "' to "
  +:+ "'" +:+ new_attr_name +:+ "'.".

(** The text of the warning of the wrapper that
    [warn_about_required_renamed_param_passed_as_kwarg] builds. *)
Definition renamed_kwarg_message
    (deprecated new bot_api_version : string) : string :=
  "Bot API " +:+ bot_api_version +:+ " renamed the argument '" +:+ deprecated
    +:+ "' to '" +:+ new +:+ "'"
  +:+ ". Make sure you rename it in your code.".

(** [stacklevel: int = 3], the default of both helpers. *)
Definition default_stacklevel : Z := 3.

(** The keyword arguments a call may give for the parameters that follow
    the two values of [warn_about_deprecated_arg_return_new_arg]; [None] is
    a keyword the call does not give. *)
Record Keywords : Type := mkKeywords {
  kw_deprecated_arg_name : option string;
  kw_new_arg_name : option string;
  kw_bot_api_version : option string;
  kw_stacklevel : option Z
}.

Definition no_keywords : Keywords := mkKeywords None None None None.

(** [{**keywords, **fkeywords}]: the later keywords win. *)
Definition merge_keywords (keywords fkeywords : Keywords) : Keywords :=
  let later {A} (new old : option A) : option A :=
    match new with Some _ => new | None => old end in
  {| kw_deprecated_arg_name :=
       later (kw_deprecated_arg_name fkeywords) (kw_deprecated_arg_name keywords);
     kw_new_arg_name :=
       later (kw_new_arg_name fkeywords) (kw_new_arg_name keywords);
     kw_bot_api_version :=
       later (kw_bot_api_version fkeywords) (kw_bot_api_version keywords);
     kw_stacklevel :=
       later (kw_stacklevel fkeywords) (kw_stacklevel keywords) |}.

(** [functools.partial(func, **keywords)] for a callable of two positional
    arguments: the result, called with [fkeywords], calls [func] with the
    same positional arguments and the merged keywords. *)
Definition partial {A B R : Type} (func : A -> B -> Keywords -> R)
    (keywords : Keywords) : A -> B -> Keywords -> R :=
  fun a b fkeywords => func a b (merge_keywords keywords fkeywords).

Section Helpers.
Context {V : Type} `{PyObject V}.

Definition warn_about_deprecated_arg_return_new_arg
    (deprecated_arg new_arg : V)
    (deprecated_arg_name new_arg_name bot_api_version : string)
    (stacklevel : Z) : Py V :=
  when (truthy deprecated_arg && truthy new_arg
          && py_ne deprecated_arg new_arg)
    (raise (ValueError
       (conflict_message deprecated_arg_name new_arg_name bot_api_version))) ;;
  if truthy deprecated_arg then
    warn (renamed_argument_message deprecated_arg_name new_arg_name
            bot_api_version)
         PTBDeprecationWarning stacklevel ;;
    ret deprecated_arg
  else
    ret new_arg.

(** The same function called with its last four parameters as keywords:
    the three names are required, [stacklevel] has a default. *)
Definition call_warn_about_deprecated_arg_return_new_arg
    (deprecated_arg new_arg : V) (keywords : Keywords) : Py V :=
  match kw_deprecated_arg_name keywords, kw_new_arg_name keywords,
        kw_bot_api_version keywords with
  | Some deprecated_arg_name, Some new_arg_name, Some bot_api_version =>
      warn_about_deprecated_arg_return_new_arg deprecated_arg new_arg
        deprecated_arg_name new_arg_name bot_api_version
        (default default_stacklevel (kw_stacklevel keywords))
  | _, _, _ => raise TypeError
  end.

Definition warn_about_deprecated_attr_in_property
    (deprecated_attr_name new_attr_name bot_api_version : string)
    (stacklevel : Z) : Py unit :=
  warn (renamed_attribute_message deprecated_attr_name new_attr_name
          bot_api_version)
       PTBDeprecationWarning stacklevel.

Definition warn_about_thumb_return_thumbnail : V -> V -> Keywords -> Py V :=
  partial call_warn_about_deprecated_arg_return_new_arg
    {| kw_deprecated_arg_name := Some "thumb";
       kw_new_arg_name := Some "thumbnail";
       kw_bot_api_version := Some "6.6";
       kw_stacklevel := None |}.

(** A callable seen from [wrapper]: positional arguments, keyword
    arguments, and a computation of the result. *)
Definition Callable (R : Type) : Type :=
  list V -> gmap string V -> Py R.

(** [decorator(func)] is [wrapper]; the three outer parameters are those
    of [warn_about_required_renamed_param_passed_as_kwarg]. *)
Definition warn_about_required_renamed_param_passed_as_kwarg
    (deprecated_param_names new_param_names : list string)
    (bot_api_version : string) {R : Type} (func : Callable R) : Callable R :=
  fun args kwargs =>
    for_each (zip deprecated_param_names new_param_names)
      (fun '(deprecated, new) =>
         when (bool_decide (deprecated ∈ dom kwargs))
           (warn (renamed_kwarg_message deprecated new bot_api_version)
                 PTBDeprecationWarning 3)) ;;
    func args kwargs.

End Helpers.

(* ===================================================================== *)
(** ** Vocabulary of the properties *)
(* ===================================================================== *)

(** The deprecation notice of the resolver. *)
Definition argument_notice (old new version : string) (stacklevel : Z)
    : WarningRecord :=
  mkWarning (renamed_argument_message old new version)
            PTBDeprecationWarning stacklevel.

(** The deprecation notice of the wrapper for one pair of names. *)
Definition kwarg_notice (version deprecated new : string) : WarningRecord :=
  mkWarning (renamed_kwarg_message deprecated new version)
            PTBDeprecationWarning 3.

(** The pairs whose deprecated name is a keyword of the call, in order. *)
Definition matched_pairs {V : Type} (kwargs : gmap string V)
    (pairs : list (string * string)) : list (string * string) :=
  filter (fun p => p.1 ∈ dom kwargs) pairs.

(** The notice for the names at position [i] of the two sequences, if both
    have that position and the deprecated one is a keyword of the call. *)
Definition notice_at {V : Type} (version : string) (kwargs : gmap string V)
    (deprecated_param_names new_param_names : list string) (i : nat)
    : option WarningRecord :=
  deprecated ← deprecated_param_names !! i;
  new ← new_param_names !! i;
  if decide (deprecated ∈ dom kwargs)
  then Some (kwarg_notice version deprecated new) else None.

(* ===================================================================== *)
(** ** Lemmas on substrings and on the messages *)
(* ===================================================================== *)

Lemma prefix_append (p s : string) : String.prefix p (p +:+ s) = true.
Proof.
  induction p as [|c p IH]; simpl.
  - by destruct s.
  - destruct (Ascii.ascii_dec c c); [exact IH | congruence].
Qed.

Lemma infix_of_prefix (p s : string) :
  String.prefix p s = true -> infix_of p s = true.
Proof. intros Hp. destruct s; cbn [infix_of]; by rewrite Hp. Qed.

Lemma infix_of_here (p s : string) : infix_of p (p +:+ s) = true.
Proof. apply infix_of_prefix, prefix_append. Qed.

Lemma infix_of_String (p : string) (c : Ascii.ascii) (s : string) :
  infix_of p s = true -> infix_of p (String c s) = true.
Proof. intros Hs. cbn [infix_of]. rewrite Hs. apply orb_true_r. Qed.

Lemma infix_of_append (p q s : string) :
  infix_of p s = true -> infix_of p (q +:+ s) = true.
Proof.
  intros Hs. induction q as [|c q IH]; [exact Hs|].
  apply infix_of_String, IH.
Qed.

(** Finds a name inside a message built by concatenation. *)
Ltac find_infix :=
  first [ apply infix_of_here | apply infix_of_append; find_infix ].

Lemma conflict_message_names (old new version : string) :
  infix_of old (conflict_message old new version) = true
  /\ infix_of new (conflict_message old new version) = true
  /\ infix_of version (conflict_message old new version) = true.
Proof. unfold conflict_message. repeat split; find_infix. Qed.

Lemma renamed_argument_message_names (old new version : string) :
  infix_of old (renamed_argument_message old new version) = true
  /\ infix_of new (renamed_argument_message old new version) = true
  /\ infix_of version (renamed_argument_message old new version) = true.
Proof. unfold renamed_argument_message. repeat split; find_infix. Qed.

Lemma renamed_attribute_message_names (old new version : string) :
  infix_of old (renamed_attribute_message old new version) = true
  /\ infix_of new (renamed_attribute_message old new version) = true
  /\ infix_of version (renamed_attribute_message old new version) = true.
Proof. unfold renamed_attribute_message. repeat split; find_infix. Qed.

(* ===================================================================== *)
(** ** Lemmas on the channel *)
(* ===================================================================== *)

Lemma emitted_app {A : Type} (m : Py A) (ch new : list WarningRecord) :
  (m ch).2 = ch ++ new -> emitted m ch = new.
Proof. unfold emitted. intros ->. apply drop_app_length. Qed.

Lemma emitted_same {A : Type} (m : Py A) (ch : list WarningRecord) :
  (m ch).2 = ch -> emitted m ch = [].
Proof. intros Hm. apply emitted_app. by rewrite app_nil_r. Qed.

(* ===================================================================== *)
(** ** Resolution of a renamed argument *)
(* ===================================================================== *)

Section Resolution.
Context {V : Type} `{PyObject V}.
Implicit Types (deprecated_arg new_arg X : V).
Implicit Types (old new version : string) (ch : list WarningRecord).

(** The three paths of the function, by the tests it makes. *)
Lemma resolve_paths deprecated_arg new_arg old new version stacklevel ch :
  warn_about_deprecated_arg_return_new_arg
    deprecated_arg new_arg old new version stacklevel ch
  = if truthy deprecated_arg && truthy new_arg
         && py_ne deprecated_arg new_arg
    then (Raises (ValueError (conflict_message old new version)), ch)
    else if truthy deprecated_arg
    then (Returns deprecated_arg,
          ch ++ [argument_notice old new version stacklevel])
    else (Returns new_arg, ch).
Proof.
  unfold warn_about_deprecated_arg_return_new_arg, when, bind, raise, warn, ret.
  destruct (truthy deprecated_arg), (truthy new_arg),
    (py_ne deprecated_arg new_arg); reflexivity.
Qed.

(** C1. The function raises exactly when both values are truthy and
    unequal; what it raises then is the [ValueError] whose message holds
    both argument names and the API version; in every other case it
    returns a value. *)
Theorem conflict_error_exactly_when_both_truthy_and_unequal
    deprecated_arg new_arg old new version stacklevel ch :
  let conflict :=
    truthy deprecated_arg = true /\ truthy new_arg = true
    /\ py_ne deprecated_arg new_arg = true in
  let r := (warn_about_deprecated_arg_return_new_arg
              deprecated_arg new_arg old new version stacklevel ch).1 in
  ((exists e, r = Raises e) <-> conflict)
  /\ (forall e, r = Raises e ->
        e = ValueError (conflict_message old new version))
  /\ (infix_of old (conflict_message old new version) = true
      /\ infix_of new (conflict_message old new version) = true
      /\ infix_of version (conflict_message old new version) = true)
  /\ (~ conflict -> exists x, r = Returns x).
Proof.
  cbv zeta. rewrite resolve_paths.
  refine (conj _ (conj _ (conj (conflict_message_names old new version) _))).
  - destruct (truthy deprecated_arg), (truthy new_arg),
      (py_ne deprecated_arg new_arg); simpl;
      (split; [intros [e He]; try discriminate; auto
              | intros (?&?&?); try discriminate; eauto]).
  - destruct (truthy deprecated_arg), (truthy new_arg),
      (py_ne deprecated_arg new_arg); simpl; intros e He; congruence.
  - destruct (truthy deprecated_arg), (truthy new_arg),
      (py_ne deprecated_arg new_arg); simpl; intros Hc; eauto;
      exfalso; apply Hc; auto.
Qed.

(** C2. With a truthy deprecated value and no new value, the function
    emits exactly one deprecation notice, whose message cites the old
    name, the new name and the API version, and returns the deprecated
    value. *)
Theorem only_deprecated_present_warns_once_and_returns_it
    deprecated_arg new_arg old new version stacklevel ch :
  truthy deprecated_arg = true ->
  truthy new_arg = false ->
  let call := warn_about_deprecated_arg_return_new_arg
                deprecated_arg new_arg old new version stacklevel in
  call ch = (Returns deprecated_arg,
             ch ++ [argument_notice old new version stacklevel])
  /\ emitted call ch = [argument_notice old new version stacklevel]
  /\ w_category (argument_notice old new version stacklevel)
     = PTBDeprecationWarning
  /\ infix_of old (renamed_argument_message old new version) = true
  /\ infix_of new (renamed_argument_message old new version) = true
  /\ infix_of version (renamed_argument_message old new version) = true.
Proof.
  intros Hold Hnew. cbv zeta.
  assert (Hrun : warn_about_deprecated_arg_return_new_arg
                   deprecated_arg new_arg old new version stacklevel ch
                 = (Returns deprecated_arg,
                    ch ++ [argument_notice old new version stacklevel])).
  { rewrite resolve_paths, Hold, Hnew. reflexivity. }
  split_and!; [exact Hrun | | reflexivity
              | apply renamed_argument_message_names ..].
  apply emitted_app. by rewrite Hrun.
Qed.

(** The part of C3 the function keeps: with a truthy deprecated value [X]
    and [None] as the new value, it returns [X] and emits exactly one
    deprecation notice. *)
Theorem truthy_old_with_None_returns_it_with_one_notice
    X old new version stacklevel ch :
  truthy X = true ->
  let call := warn_about_deprecated_arg_return_new_arg
                X None_ old new version stacklevel in
  (call ch).1 = Returns X
  /\ emitted call ch = [argument_notice old new version stacklevel].
Proof.
  intros HX. cbv zeta.
  assert (Hrun : warn_about_deprecated_arg_return_new_arg
                   X None_ old new version stacklevel ch
                 = (Returns X,
                    ch ++ [argument_notice old new version stacklevel])).
  { rewrite resolve_paths, HX, truthy_None. reflexivity. }
  split; [by rewrite Hrun | apply emitted_app; by rewrite Hrun].
Qed.

(** C4. A falsy deprecated value counts as not given: whatever the new
    value, the function returns it, emits no warning and raises nothing. *)
Theorem falsy_deprecated_returns_new_silently
    deprecated_arg new_arg old new version stacklevel ch :
  truthy deprecated_arg = false ->
  let call := warn_about_deprecated_arg_return_new_arg
                deprecated_arg new_arg old new version stacklevel in
  call ch = (Returns new_arg, ch)
  /\ emitted call ch = []
  /\ (forall e, (call ch).1 <> Raises e).
Proof.
  intros Hold. cbv zeta.
  assert (Hrun : warn_about_deprecated_arg_return_new_arg
                   deprecated_arg new_arg old new version stacklevel ch
                 = (Returns new_arg, ch)).
  { rewrite resolve_paths, Hold. reflexivity. }
  split_and!; [exact Hrun | apply emitted_same; by rewrite Hrun |].
  intros e. by rewrite Hrun.
Qed.

(** C5. When the same value [X] is given under both names, present and
    equal ([X != X] is false), the function returns [X], raises nothing,
    and emits a deprecation notice if and only if [X] is truthy. *)
Theorem same_value_returns_it_and_warns_iff_truthy
    X old new version stacklevel ch :
  py_ne X X = false ->
  let call := warn_about_deprecated_arg_return_new_arg
                X X old new version stacklevel in
  (call ch).1 = Returns X
  /\ (forall e, (call ch).1 <> Raises e)
  /\ (emitted call ch = [argument_notice old new version stacklevel]
      <-> truthy X = true)
  /\ (emitted call ch = [] <-> truthy X = false).
Proof.
  intros Hne. cbv zeta.
  assert (Hrun : warn_about_deprecated_arg_return_new_arg
                   X X old new version stacklevel ch
                 = if truthy X
                   then (Returns X,
                         ch ++ [argument_notice old new version stacklevel])
                   else (Returns X, ch)).
  { rewrite resolve_paths, Hne, andb_false_r. reflexivity. }
  destruct (truthy X) eqn:HX.
  - assert (He : emitted (warn_about_deprecated_arg_return_new_arg
                            X X old new version stacklevel) ch
                 = [argument_notice old new version stacklevel])
      by (apply emitted_app; by rewrite Hrun).
    rewrite He, Hrun. split_and!; try done.
  - assert (He : emitted (warn_about_deprecated_arg_return_new_arg
                            X X old new version stacklevel) ch = [])
      by (apply emitted_same; by rewrite Hrun).
    rewrite He, Hrun. split_and!; try done.
Qed.

(** C10. A call that raises leaves the warning channel as it found it:
    the conflict is checked before any notice is emitted. *)
Theorem conflict_error_emits_no_notice
    deprecated_arg new_arg old new version stacklevel ch e :
  let call := warn_about_deprecated_arg_return_new_arg
                deprecated_arg new_arg old new version stacklevel in
  (call ch).1 = Raises e ->
  (call ch).2 = ch /\ emitted call ch = [].
Proof.
  cbv zeta. intros Hraise.
  assert (Hch : (warn_about_deprecated_arg_return_new_arg
                   deprecated_arg new_arg old new version stacklevel ch).2
                = ch).
  { revert Hraise. rewrite resolve_paths.
    destruct (truthy deprecated_arg), (truthy new_arg),
      (py_ne deprecated_arg new_arg); simpl; congruence. }
  split; [exact Hch | by apply emitted_same].
Qed.

End Resolution.

(* ===================================================================== *)
(** ** The attribute notice and the preconfigured resolver *)
(* ===================================================================== *)

Section Attribute_and_partial.
Context {V : Type} `{PyObject V}.

(** C8. Every call of [warn_about_deprecated_attr_in_property] emits
    exactly one deprecation notice, whose message holds both attribute
    names and the API version, returns [None] and raises nothing. *)
Theorem attribute_notice_always_emitted_once
    (old new version : string) (stacklevel : Z) (ch : list WarningRecord) :
  let call := warn_about_deprecated_attr_in_property
                old new version stacklevel in
  let notice := mkWarning (renamed_attribute_message old new version)
                          PTBDeprecationWarning stacklevel in
  call ch = (Returns tt, ch ++ [notice])
  /\ emitted call ch = [notice]
  /\ infix_of old (w_message notice) = true
  /\ infix_of new (w_message notice) = true
  /\ infix_of version (w_message notice) = true.
Proof.
  cbv zeta. split; [reflexivity|]. split.
  - by apply emitted_app.
  - apply renamed_attribute_message_names.
Qed.

(** C9. Calling [warn_about_thumb_return_thumbnail] on two values is
    calling [warn_about_deprecated_arg_return_new_arg] on them with the
    names "thumb" and "thumbnail", the version "6.6" and the default
    stack level: same outcome, same channel. *)
Theorem thumb_resolver_is_the_resolver_at_thumb_thumbnail
    (deprecated_arg new_arg : V) (ch : list WarningRecord) :
  warn_about_thumb_return_thumbnail deprecated_arg new_arg no_keywords ch
  = call_warn_about_deprecated_arg_return_new_arg deprecated_arg new_arg
      (mkKeywords (Some "thumb") (Some "thumbnail") (Some "6.6") None) ch
  /\ warn_about_thumb_return_thumbnail deprecated_arg new_arg no_keywords ch
     = warn_about_deprecated_arg_return_new_arg
         deprecated_arg new_arg "thumb" "thumbnail" "6.6" 3 ch.
Proof. split; reflexivity. Qed.

End Attribute_and_partial.

(* ===================================================================== *)
(** ** The keyword-rename guard *)
(* ===================================================================== *)

Section Decorator.
Context {V : Type} `{PyObject V}.
Implicit Types (deprecated_param_names new_param_names : list string).
Implicit Types (kwargs : gmap string V) (args : list V).
Implicit Types (ch : list WarningRecord).

(** The loop of the wrapper: it never raises and appends one notice per
    matched pair. *)
Lemma wrapper_loop version kwargs (pairs : list (string * string)) ch :
  for_each pairs
    (fun '(deprecated, new) =>
       when (bool_decide (deprecated ∈ dom kwargs))
         (warn (renamed_kwarg_message deprecated new version)
               PTBDeprecationWarning 3)) ch
  = (Returns tt,
     ch ++ ((fun p => kwarg_notice version p.1 p.2)
              <$> matched_pairs kwargs pairs)).
Proof.
  revert ch. induction pairs as [|[deprecated new] pairs IH]; intros ch.
  - cbn. by rewrite app_nil_r.
  - cbn [for_each]. unfold bind at 1, when, matched_pairs.
    rewrite filter_cons. cbn [fst].
    case_bool_decide; case_decide; try done.
    + cbn. rewrite IH. unfold matched_pairs. by rewrite <- app_assoc.
    + cbn. by rewrite IH.
Qed.

Lemma omap_seq_S {B : Type} (g : nat -> option B) (j n : nat) :
  omap g (seq (S j) n) = omap (fun i => g (S i)) (seq j n).
Proof.
  revert j. induction n as [|n IH]; intros j; [done|].
  cbn. by rewrite IH.
Qed.

Lemma omap_cons {A B : Type} (g : A -> option B) (x : A) (l : list A) :
  omap g (x :: l)
  = match g x with Some y => y :: omap g l | None => omap g l end.
Proof. reflexivity. Qed.

(** The notices of the matched pairs, read off position by position. *)
Lemma matched_pairs_by_position version kwargs
    deprecated_param_names new_param_names :
  (fun p => kwarg_notice version p.1 p.2)
    <$> matched_pairs kwargs (zip deprecated_param_names new_param_names)
  = omap (notice_at version kwargs deprecated_param_names new_param_names)
      (seq 0 (length deprecated_param_names `min` length new_param_names)).
Proof.
  revert new_param_names.
  induction deprecated_param_names as [|d ds IH]; intros [|n ns]; try done.
  cbn [zip_with length Nat.min seq]. unfold matched_pairs.
  rewrite filter_cons. cbn [fst].
  rewrite omap_cons, omap_seq_S.
  change (omap (M := list)
            (fun i => notice_at version kwargs (d :: ds) (n :: ns) (S i)))
    with (omap (M := list) (notice_at version kwargs ds ns)).
  rewrite <- IH. unfold notice_at, matched_pairs. cbn.
  by case_decide.
Qed.

(** C6. A call of the wrapped function emits one deprecation notice per
    pair of names whose deprecated name is among the keyword arguments,
    then calls the underlying function on the same positional and keyword
    arguments; the outcome of the call is the outcome of that function. *)
Theorem wrapper_warns_once_per_matched_pair_then_forwards
    deprecated_param_names new_param_names (bot_api_version : string)
    {R : Type} (func : Callable R) args kwargs ch :
  let matched :=
    matched_pairs kwargs (zip deprecated_param_names new_param_names) in
  let notices :=
    (fun p => kwarg_notice bot_api_version p.1 p.2) <$> matched in
  warn_about_required_renamed_param_passed_as_kwarg
    deprecated_param_names new_param_names bot_api_version func
    args kwargs ch
  = func args kwargs (ch ++ notices)
  /\ length notices = length matched.
Proof.
  cbv zeta. split; [|apply length_fmap].
  unfold warn_about_required_renamed_param_passed_as_kwarg, bind.
  by rewrite wrapper_loop.
Qed.

(** C7. Names are paired by position, and a name beyond the length of the
    shorter sequence plays no part: the notices are those of the
    positions both sequences have, and the call behaves as the one
    decorated with both sequences cut to the shorter length. *)
Theorem names_beyond_the_shorter_sequence_are_skipped
    deprecated_param_names new_param_names (bot_api_version : string)
    {R : Type} (func : Callable R) args kwargs ch :
  let k := Nat.min (length deprecated_param_names)
                   (length new_param_names) in
  warn_about_required_renamed_param_passed_as_kwarg
    deprecated_param_names new_param_names bot_api_version func
    args kwargs ch
  = func args kwargs
      (ch ++ omap (notice_at bot_api_version kwargs
                     deprecated_param_names new_param_names) (seq 0 k))
  /\ warn_about_required_renamed_param_passed_as_kwarg
       deprecated_param_names new_param_names bot_api_version func
       args kwargs ch
     = warn_about_required_renamed_param_passed_as_kwarg
         (take k deprecated_param_names) (take k new_param_names)
         bot_api_version func args kwargs ch.
Proof.
  cbv zeta. split.
  - unfold warn_about_required_renamed_param_passed_as_kwarg, bind.
    by rewrite wrapper_loop, matched_pairs_by_position.
  - unfold warn_about_required_renamed_param_passed_as_kwarg.
    rewrite <- zip_with_take. rewrite take_ge; [done|].
    rewrite length_zip_with. lia.
Qed.

End Decorator.

(* ===================================================================== *)
(** ** The properties on builtin values *)
(* ===================================================================== *)

(** The scenario of C2: [thumb="a.jpg"], no [thumbnail]. *)
Lemma only_deprecated_present_at_a_jpg :
  truthy (PyStr "a.jpg") = true
  /\ truthy PyNone = false
  /\ warn_about_deprecated_arg_return_new_arg
       (PyStr "a.jpg") PyNone "thumb" "thumbnail" "6.6" 3 []
     = (Returns (PyStr "a.jpg"),
        [mkWarning "Bot API 6.6 renamed the argument 'thumb' to 'thumbnail'."
                   PTBDeprecationWarning 3]).
Proof.
  split; [reflexivity|]. split; [reflexivity|].
  exact (proj1 (only_deprecated_present_warns_once_and_returns_it
                  (PyStr "a.jpg") PyNone "thumb" "thumbnail" "6.6" 3 []
                  eq_refl eq_refl)).
Defined.

(** C3. At the deprecated value [0] with [None] as the new value the call
    returns [None], not [0], and emits no notice, although [0] is not
    [None] and the docstring of the function has it warn whenever a
    non-None deprecated value was passed. *)
Lemma falsy_old_with_None_returns_None_silently :
  let call := warn_about_deprecated_arg_return_new_arg
                (PyInt 0) PyNone "thumb" "thumbnail" "6.6" 3 in
  (call []).1 = Returns PyNone
  /\ emitted call [] = []
  /\ ~ ((call []).1 = Returns (PyInt 0) /\ length (emitted call []) = 1%nat).
Proof.
  cbv zeta. split; [reflexivity|]. split; [reflexivity|].
  intros [Hret _]. discriminate Hret.
Qed.

(** The truthy case of C3 at [thumb="a.jpg"]. *)
Lemma truthy_old_with_None_at_a_jpg :
  truthy (PyStr "a.jpg") = true
  /\ (warn_about_deprecated_arg_return_new_arg
        (PyStr "a.jpg") PyNone "thumb" "thumbnail" "6.6" 3 []).1
     = Returns (PyStr "a.jpg")
  /\ emitted (warn_about_deprecated_arg_return_new_arg
                (PyStr "a.jpg") PyNone "thumb" "thumbnail" "6.6" 3) []
     = [argument_notice "thumb" "thumbnail" "6.6" 3].
Proof.
  split; [reflexivity|].
  exact (truthy_old_with_None_returns_it_with_one_notice
           (PyStr "a.jpg") "thumb" "thumbnail" "6.6" 3 [] eq_refl).
Defined.

(** C4 at the falsy values [0] and [""]. *)
Lemma falsy_deprecated_at_zero_and_empty_string :
  truthy (PyInt 0) = false
  /\ warn_about_deprecated_arg_return_new_arg
       (PyInt 0) (PyStr "b.jpg") "thumb" "thumbnail" "6.6" 3 []
     = (Returns (PyStr "b.jpg"), [])
  /\ truthy (PyStr "") = false
  /\ warn_about_deprecated_arg_return_new_arg
       (PyStr "") (PyInt 7) "thumb" "thumbnail" "6.6" 3 []
     = (Returns (PyInt 7), []).
Proof.
  split; [reflexivity|]. split.
  - exact (proj1 (falsy_deprecated_returns_new_silently
                    (PyInt 0) (PyStr "b.jpg") "thumb" "thumbnail" "6.6" 3 []
                    eq_refl)).
  - split; [reflexivity|].
    exact (proj1 (falsy_deprecated_returns_new_silently
                    (PyStr "") (PyInt 7) "thumb" "thumbnail" "6.6" 3 []
                    eq_refl)).
Defined.

(** The equality in the condition of C5 is that of [!=]: the float NaN is
    truthy and unequal to itself, so giving it under both names raises the
    conflict error. *)
Lemma same_NaN_under_both_names_raises :
  let call := warn_about_deprecated_arg_return_new_arg
                (PyFloat nan) (PyFloat nan) "thumb" "thumbnail" "6.6" 3 in
  truthy (PyFloat nan) = true
  /\ py_ne (PyFloat nan) (PyFloat nan) = true
  /\ (call []).1
     = Raises (ValueError (conflict_message "thumb" "thumbnail" "6.6"))
  /\ (call []).1 <> Returns (PyFloat nan).
Proof.
  cbv zeta. split; [reflexivity|]. split; [reflexivity|].
  split; [reflexivity|]. discriminate.
Qed.

(** C5 at a truthy and at a falsy value. *)
Lemma same_value_at_a_jpg_and_zero :
  py_ne (PyStr "a.jpg") (PyStr "a.jpg") = false
  /\ (warn_about_deprecated_arg_return_new_arg
        (PyStr "a.jpg") (PyStr "a.jpg") "thumb" "thumbnail" "6.6" 3 []).1
     = Returns (PyStr "a.jpg")
  /\ py_ne (PyInt 0) (PyInt 0) = false
  /\ (warn_about_deprecated_arg_return_new_arg
        (PyInt 0) (PyInt 0) "thumb" "thumbnail" "6.6" 3 []).1
     = Returns (PyInt 0).
Proof.
  split; [reflexivity|]. split.
  - exact (proj1 (same_value_returns_it_and_warns_iff_truthy
                    (PyStr "a.jpg") "thumb" "thumbnail" "6.6" 3 [] eq_refl)).
  - split; [reflexivity|].
    exact (proj1 (same_value_returns_it_and_warns_iff_truthy
                    (PyInt 0) "thumb" "thumbnail" "6.6" 3 [] eq_refl)).
Defined.

(** The scenario of C10: [thumb="a.jpg"], [thumbnail="b.jpg"]. *)
Lemma conflict_at_a_jpg_b_jpg_emits_no_notice :
  (warn_about_deprecated_arg_return_new_arg
     (PyStr "a.jpg") (PyStr "b.jpg") "thumb" "thumbnail" "6.6" 3 []).1
  = Raises (ValueError (conflict_message "thumb" "thumbnail" "6.6"))
  /\ (warn_about_deprecated_arg_return_new_arg
        (PyStr "a.jpg") (PyStr "b.jpg") "thumb" "thumbnail" "6.6" 3 []).2
     = [].
Proof.
  split; [reflexivity|].
  exact (proj1 (conflict_error_emits_no_notice
                  (PyStr "a.jpg") (PyStr "b.jpg") "thumb" "thumbnail" "6.6" 3
                  [] (ValueError (conflict_message "thumb" "thumbnail" "6.6"))
                  eq_refl)).
Defined.

(* ===================================================================== *)
(** ** Further properties of the resolution *)
(* ===================================================================== *)

Section Resolution_further.
Context {V : Type} `{PyObject V}.
Implicit Types (deprecated_arg new_arg x : V).
Implicit Types (old new version : string) (ch : list WarningRecord).

(** X1. When the deprecated value is truthy and [deprecated_arg != new_arg]
    is false, the value returned is the deprecated object, not the new
    one, and one deprecation notice is emitted. *)
Theorem equal_values_return_the_deprecated_object
    deprecated_arg new_arg old new version stacklevel ch :
  truthy deprecated_arg = true ->
  py_ne deprecated_arg new_arg = false ->
  warn_about_deprecated_arg_return_new_arg
    deprecated_arg new_arg old new version stacklevel ch
  = (Returns deprecated_arg,
     ch ++ [argument_notice old new version stacklevel]).
Proof.
  intros Hold Hne. by rewrite resolve_paths, Hold, Hne, andb_false_r.
Qed.

(** X2. A value the function returns is one of the two values it was
    given, and it is truthy exactly when one of the two is. *)
Theorem returned_value_is_one_of_the_two
    deprecated_arg new_arg old new version stacklevel ch x :
  (warn_about_deprecated_arg_return_new_arg
     deprecated_arg new_arg old new version stacklevel ch).1 = Returns x ->
  (x = deprecated_arg \/ x = new_arg)
  /\ truthy x = truthy deprecated_arg || truthy new_arg.
Proof.
  rewrite resolve_paths.
  destruct (truthy deprecated_arg) eqn:Hold, (truthy new_arg) eqn:Hnew,
    (py_ne deprecated_arg new_arg); simpl; intros Hx; simplify_eq;
    rewrite ?Hold, ?Hnew; auto.
Qed.

(** X3. The function never touches the records already in the channel, and
    it appends its notice exactly when the deprecated value is truthy and
    there is no conflict; otherwise it appends nothing. *)
Theorem notice_exactly_when_deprecated_truthy_and_no_conflict
    deprecated_arg new_arg old new version stacklevel ch :
  (warn_about_deprecated_arg_return_new_arg
     deprecated_arg new_arg old new version stacklevel ch).2
  = ch ++ (if truthy deprecated_arg
              && negb (truthy new_arg && py_ne deprecated_arg new_arg)
           then [argument_notice old new version stacklevel] else []).
Proof.
  rewrite resolve_paths.
  destruct (truthy deprecated_arg), (truthy new_arg),
    (py_ne deprecated_arg new_arg); simpl; by rewrite ?app_nil_r.
Qed.

(** X4. A call of [warn_about_thumb_return_thumbnail] that gives both
    values, with any of the four other parameters as keywords, is the call
    of [warn_about_deprecated_arg_return_new_arg] in which a keyword of the
    call replaces the preconfigured one and the others keep "thumb",
    "thumbnail", "6.6" and the default stack level; such a call lacks no
    argument. *)
Theorem thumb_resolver_keywords_override_the_bound_ones
    deprecated_arg new_arg (fkeywords : Keywords) ch :
  warn_about_thumb_return_thumbnail deprecated_arg new_arg fkeywords ch
  = warn_about_deprecated_arg_return_new_arg deprecated_arg new_arg
      (default "thumb" (kw_deprecated_arg_name fkeywords))
      (default "thumbnail" (kw_new_arg_name fkeywords))
      (default "6.6" (kw_bot_api_version fkeywords))
      (default 3 (kw_stacklevel fkeywords)) ch
  /\ (warn_about_thumb_return_thumbnail
        deprecated_arg new_arg fkeywords ch).1 <> Raises TypeError.
Proof.
  assert (Hcall :
    warn_about_thumb_return_thumbnail deprecated_arg new_arg fkeywords ch
    = warn_about_deprecated_arg_return_new_arg deprecated_arg new_arg
        (default "thumb" (kw_deprecated_arg_name fkeywords))
        (default "thumbnail" (kw_new_arg_name fkeywords))
        (default "6.6" (kw_bot_api_version fkeywords))
        (default 3 (kw_stacklevel fkeywords)) ch).
  { destruct fkeywords as [[a|] [b|] [v|] [s|]]; reflexivity. }
  split; [exact Hcall|]. rewrite Hcall, resolve_paths.
  destruct (truthy deprecated_arg), (truthy new_arg),
    (py_ne deprecated_arg new_arg); simpl; discriminate.
Qed.

End Resolution_further.

(* ===================================================================== *)
(** ** Further properties of the keyword-rename guard *)
(* ===================================================================== *)

Lemma renamed_kwarg_message_names (old new version : string) :
  infix_of old (renamed_kwarg_message old new version) = true
  /\ infix_of new (renamed_kwarg_message old new version) = true
  /\ infix_of version (renamed_kwarg_message old new version) = true.
Proof. unfold renamed_kwarg_message. repeat split; find_infix. Qed.

Section Decorator_further.
Context {V : Type} `{PyObject V}.
Implicit Types (deprecated_param_names new_param_names : list string).
Implicit Types (kwargs : gmap string V) (args : list V).
Implicit Types (ch : list WarningRecord).

(** The notices the wrapper emits at a call with keywords [kwargs]. *)
Local Abbreviation notices_of version kwargs deprecated_param_names new_param_names :=
  ((fun p : string * string => kwarg_notice version p.1 p.2)
     <$> matched_pairs kwargs (zip deprecated_param_names new_param_names)).

(** The wrapper runs the function after its notices. *)
Lemma wrapper_run deprecated_param_names new_param_names (version : string)
    {R : Type} (func : Callable R) args kwargs ch :
  warn_about_required_renamed_param_passed_as_kwarg
    deprecated_param_names new_param_names version func args kwargs ch
  = func args kwargs
      (ch ++ notices_of version kwargs deprecated_param_names new_param_names).
Proof.
  unfold warn_about_required_renamed_param_passed_as_kwarg, bind.
  by rewrite wrapper_loop.
Qed.

Lemma matched_pairs_none kwargs deprecated_param_names new_param_names :
  Forall (fun d => kwargs !! d = None) deprecated_param_names ->
  matched_pairs kwargs (zip deprecated_param_names new_param_names) = [].
Proof.
  intros Hnone. revert new_param_names. unfold matched_pairs.
  induction Hnone as [|d ds Hd _ IH]; intros [|n ns]; try done.
  cbn [zip_with]. rewrite filter_cons_False; [apply IH|].
  cbn. by apply not_elem_of_dom.
Qed.

Lemma matched_pairs_app kwargs (pairs1 pairs2 : list (string * string)) :
  matched_pairs kwargs (pairs1 ++ pairs2)
  = matched_pairs kwargs pairs1 ++ matched_pairs kwargs pairs2.
Proof. apply filter_app. Qed.

(** X5. A call none of whose keywords is a deprecated name is the call of
    the underlying function: no notice, same arguments, same outcome. *)
Theorem call_without_deprecated_keyword_is_the_function
    deprecated_param_names new_param_names (bot_api_version : string)
    {R : Type} (func : Callable R) args kwargs ch :
  Forall (fun d => kwargs !! d = None) deprecated_param_names ->
  warn_about_required_renamed_param_passed_as_kwarg
    deprecated_param_names new_param_names bot_api_version func
    args kwargs ch
  = func args kwargs ch.
Proof.
  intros Hnone. rewrite wrapper_run, matched_pairs_none by done.
  by rewrite app_nil_r.
Qed.

(** X6. A call without keyword arguments, and a wrapper built from an empty
    sequence of deprecated or of new names, emit nothing: the call is the
    call of the underlying function. *)
Theorem no_keywords_or_no_names_is_the_function
    deprecated_param_names new_param_names (bot_api_version : string)
    {R : Type} (func : Callable R) args kwargs ch :
  warn_about_required_renamed_param_passed_as_kwarg
    deprecated_param_names new_param_names bot_api_version func args ∅ ch
  = func args ∅ ch
  /\ warn_about_required_renamed_param_passed_as_kwarg
       [] new_param_names bot_api_version func args kwargs ch
     = func args kwargs ch
  /\ warn_about_required_renamed_param_passed_as_kwarg
       deprecated_param_names [] bot_api_version func args kwargs ch
     = func args kwargs ch.
Proof.
  split_and!.
  - rewrite wrapper_run, matched_pairs_none, app_nil_r; [done|].
    apply Forall_forall. intros d _. apply lookup_empty.
  - rewrite wrapper_run. cbn. by rewrite app_nil_r.
  - rewrite wrapper_run, zip_with_nil_r. cbn. by rewrite app_nil_r.
Qed.

(** X7. The wrapper emits at most as many notices as the shorter of the two
    sequences has names, and each of them is a [PTBDeprecationWarning] of
    stack level 3 for a pair of the two sequences whose deprecated name is
    a keyword of the call; its message holds the deprecated name, the new
    name and the API version. *)
Theorem wrapper_notices_are_for_paired_keywords
    deprecated_param_names new_param_names (bot_api_version : string) kwargs :
  exists notices : list WarningRecord,
    (forall (R : Type) (func : Callable R) args ch,
       warn_about_required_renamed_param_passed_as_kwarg
         deprecated_param_names new_param_names bot_api_version func
         args kwargs ch
       = func args kwargs (ch ++ notices))
    /\ (length notices <= Nat.min (length deprecated_param_names)
                                  (length new_param_names))%nat
    /\ Forall (fun r =>
          w_category r = PTBDeprecationWarning
          /\ w_stacklevel r = 3
          /\ exists deprecated new,
               (deprecated, new) ∈ zip deprecated_param_names new_param_names
               /\ is_Some (kwargs !! deprecated)
               /\ w_message r
                  = renamed_kwarg_message deprecated new bot_api_version
               /\ infix_of deprecated (w_message r) = true
               /\ infix_of new (w_message r) = true
               /\ infix_of bot_api_version (w_message r) = true) notices.
Proof.
  eexists. split; [intros R func args ch; apply wrapper_run|]. split.
  - rewrite length_fmap. unfold matched_pairs.
    etrans; [apply length_filter|]. by rewrite length_zip_with.
  - apply Forall_fmap, Forall_forall. intros [d n] Hin.
    apply list_elem_of_filter in Hin as [Hdom Hin]. cbn in Hdom |- *.
    split_and!; try done.
    exists d, n. split_and!; try done.
    + by apply elem_of_dom.
    + apply renamed_kwarg_message_names.
    + apply renamed_kwarg_message_names.
    + apply renamed_kwarg_message_names.
Qed.

(** X8. Which notices the wrapper emits depends on the names of the
    keyword arguments alone: two calls whose keywords have the same names
    get the same notices, whatever the values of the keywords and whatever
    the positional arguments. *)
Theorem wrapper_notices_depend_on_keyword_names_only
    deprecated_param_names new_param_names (bot_api_version : string)
    (kwargs1 kwargs2 : gmap string V) :
  dom kwargs1 = dom kwargs2 ->
  exists notices : list WarningRecord,
    forall (R : Type) (func : Callable R) args1 args2 ch,
      warn_about_required_renamed_param_passed_as_kwarg
        deprecated_param_names new_param_names bot_api_version func
        args1 kwargs1 ch
      = func args1 kwargs1 (ch ++ notices)
      /\ warn_about_required_renamed_param_passed_as_kwarg
           deprecated_param_names new_param_names bot_api_version func
           args2 kwargs2 ch
         = func args2 kwargs2 (ch ++ notices).
Proof.
  intros Hdom. eexists. intros R func args1 args2 ch.
  split; [apply wrapper_run|]. rewrite wrapper_run.
  unfold matched_pairs. by rewrite Hdom.
Qed.

(** X9. A deprecated name that has a partner at its position and is given
    as a keyword is warned about whatever value it carries: presence is
    the presence of the keyword, not the truthiness of its value. *)
Theorem deprecated_keyword_warns_whatever_its_value
    deprecated_param_names new_param_names (bot_api_version : string)
    kwargs (i : nat) (deprecated new : string) (x : V) :
  deprecated_param_names !! i = Some deprecated ->
  new_param_names !! i = Some new ->
  kwargs !! deprecated = Some x ->
  exists notices : list WarningRecord,
    (forall (R : Type) (func : Callable R) args ch,
       warn_about_required_renamed_param_passed_as_kwarg
         deprecated_param_names new_param_names bot_api_version func
         args kwargs ch
       = func args kwargs (ch ++ notices))
    /\ kwarg_notice bot_api_version deprecated new ∈ notices.
Proof.
  intros Hd Hn Hx. eexists.
  split; [intros R func args ch; apply wrapper_run|].
  apply (list_elem_of_fmap_2'
           (fun p : string * string => kwarg_notice bot_api_version p.1 p.2)
           _ (deprecated, new)); [|done].
  apply list_elem_of_filter. split; [cbn; by eapply elem_of_dom_2|].
  apply list_elem_of_lookup. exists i.
  apply lookup_zip_with_Some. eauto.
Qed.

(** X10. Stacking two wrappers is one wrapper over the concatenated
    sequences, provided the outer one pairs all its names: the notices of
    the outer wrapper come first, then those of the inner one, then the
    function runs. *)
Theorem stacked_wrappers_are_one_wrapper
    (deprecated1 new1 deprecated2 new2 : list string)
    (bot_api_version : string)
    {R : Type} (func : Callable R) args kwargs ch :
  length deprecated1 = length new1 ->
  warn_about_required_renamed_param_passed_as_kwarg
    deprecated1 new1 bot_api_version
    (warn_about_required_renamed_param_passed_as_kwarg
       deprecated2 new2 bot_api_version func)
    args kwargs ch
  = warn_about_required_renamed_param_passed_as_kwarg
      (deprecated1 ++ deprecated2) (new1 ++ new2) bot_api_version func
      args kwargs ch.
Proof.
  intros Hlen. rewrite !wrapper_run.
  rewrite zip_with_app by done.
  by rewrite matched_pairs_app, fmap_app, app_assoc.
Qed.

End Decorator_further.

(* ===================================================================== *)
(** ** The further properties on builtin values *)
(* ===================================================================== *)

(** X1 at [1] and [1.0]: equal, and the integer given under the deprecated
    name is what comes back. *)
Lemma equal_values_at_one_and_one_point_zero :
  truthy (PyInt 1) = true
  /\ py_ne (PyInt 1) (PyFloat 1%float) = false
  /\ warn_about_deprecated_arg_return_new_arg
       (PyInt 1) (PyFloat 1%float) "thumb" "thumbnail" "6.6" 3 []
     = (Returns (PyInt 1), [argument_notice "thumb" "thumbnail" "6.6" 3]).
Proof.
  split; [reflexivity|]. split; [reflexivity|].
  exact (equal_values_return_the_deprecated_object
           (PyInt 1) (PyFloat 1%float) "thumb" "thumbnail" "6.6" 3 []
           eq_refl eq_refl).
Defined.

(** X2 at an empty deprecated string and a new file name. *)
Lemma returned_value_at_empty_string_and_b_jpg :
  (warn_about_deprecated_arg_return_new_arg
     (PyStr "") (PyStr "b.jpg") "thumb" "thumbnail" "6.6" 3 []).1
  = Returns (PyStr "b.jpg")
  /\ (PyStr "b.jpg" = PyStr "" \/ PyStr "b.jpg" = PyStr "b.jpg")
  /\ truthy (PyStr "b.jpg") = truthy (PyStr "") || truthy (PyStr "b.jpg").
Proof.
  split; [reflexivity|].
  exact (returned_value_is_one_of_the_two
           (PyStr "") (PyStr "b.jpg") "thumb" "thumbnail" "6.6" 3 []
           (PyStr "b.jpg") eq_refl).
Defined.

(** X5 at a call that uses the new name only. *)
Lemma call_with_new_name_only_is_the_function :
  Forall (fun d => ({["thumbnail" := PyStr "a.jpg"]} : gmap string PyVal) !! d
                   = None) ["thumb"]
  /\ warn_about_required_renamed_param_passed_as_kwarg
       ["thumb"] ["thumbnail"] "6.6"
       (fun args kwargs => ret (kwargs !! "thumbnail"))
       [] {["thumbnail" := PyStr "a.jpg"]} []
     = (Returns (Some (PyStr "a.jpg")), []).
Proof.
  assert (Hnone :
    Forall (fun d => ({["thumbnail" := PyStr "a.jpg"]} : gmap string PyVal) !! d
                     = None) ["thumb"])
    by (repeat constructor).
  split; [exact Hnone|].
  exact (call_without_deprecated_keyword_is_the_function
           ["thumb"] ["thumbnail"] "6.6"
           (fun args kwargs => ret (kwargs !! "thumbnail"))
           [] {["thumbnail" := PyStr "a.jpg"]} [] Hnone).
Defined.

(** X8 at the keyword [thumb] carrying a file name and carrying [None]. *)
Lemma same_notices_for_thumb_with_a_file_and_with_None :
  dom ({["thumb" := PyStr "a.jpg"]} : gmap string PyVal)
  = dom ({["thumb" := PyNone]} : gmap string PyVal)
  /\ exists notices : list WarningRecord,
       forall (R : Type) (func : Callable R) args1 args2 ch,
         warn_about_required_renamed_param_passed_as_kwarg
           ["thumb"] ["thumbnail"] "6.6" func
           args1 {["thumb" := PyStr "a.jpg"]} ch
         = func args1 {["thumb" := PyStr "a.jpg"]} (ch ++ notices)
         /\ warn_about_required_renamed_param_passed_as_kwarg
              ["thumb"] ["thumbnail"] "6.6" func
              args2 {["thumb" := PyNone]} ch
            = func args2 {["thumb" := PyNone]} (ch ++ notices).
Proof.
  assert (Hdom : dom ({["thumb" := PyStr "a.jpg"]} : gmap string PyVal)
                 = dom ({["thumb" := PyNone]} : gmap string PyVal))
    by (by rewrite !dom_singleton_L).
  split; [exact Hdom|].
  exact (wrapper_notices_depend_on_keyword_names_only
           ["thumb"] ["thumbnail"] "6.6" _ _ Hdom).
Defined.

(** X9 at the keyword [thumb=None]. *)
Lemma thumb_None_as_keyword_warns :
  ["thumb"] !! 0%nat = Some "thumb"
  /\ ["thumbnail"] !! 0%nat = Some "thumbnail"
  /\ ({["thumb" := PyNone]} : gmap string PyVal) !! "thumb" = Some PyNone
  /\ exists notices : list WarningRecord,
       (forall (R : Type) (func : Callable R) args ch,
          warn_about_required_renamed_param_passed_as_kwarg
            ["thumb"] ["thumbnail"] "6.6" func
            args {["thumb" := PyNone]} ch
          = func args {["thumb" := PyNone]} (ch ++ notices))
       /\ kwarg_notice "6.6" "thumb" "thumbnail" ∈ notices.
Proof.
  split; [reflexivity|]. split; [reflexivity|]. split; [reflexivity|].
  exact (deprecated_keyword_warns_whatever_its_value
           ["thumb"] ["thumbnail"] "6.6" {["thumb" := PyNone]} 0
           "thumb" "thumbnail" PyNone eq_refl eq_refl eq_refl).
Defined.

(** X10 at two wrappers of one name each. *)
Lemma stacked_wrappers_at_thumb_and_timeout :
  length ["thumb"] = length ["thumbnail"]
  /\ warn_about_required_renamed_param_passed_as_kwarg
       ["thumb"] ["thumbnail"] "6.6"
       (warn_about_required_renamed_param_passed_as_kwarg
          ["timeout"] ["read_timeout"] "6.6"
          (fun args kwargs => ret (length args)))
       [PyInt 1]
       {["thumb" := PyStr "a.jpg"; "timeout" := PyInt 5]} []
     = (Returns 1%nat,
        [kwarg_notice "6.6" "thumb" "thumbnail";
         kwarg_notice "6.6" "timeout" "read_timeout"]).
Proof.
  split; [reflexivity|].
  exact (stacked_wrappers_are_one_wrapper
           ["thumb"] ["thumbnail"] ["timeout"] ["read_timeout"] "6.6"
           (fun args kwargs => ret (length args))
           [PyInt 1]
           {["thumb" := PyStr "a.jpg"; "timeout" := PyInt 5]} []
           eq_refl).
Defined.
